(** * A shallow embedding of the two QGIS console scripts of
    MobilityDB-visualization:

    - [create_temporal_layer.py] (the Layer Initializer), and
    - [import_rows_to_memory.py] (the Trip Row Importer).

    Both scripts are flat sequences of Python statements run at module
    level of the QGIS Python console.  Each source line is embedded as one
    action of a state-and-exception monad [M]: the state holds the Python
    globals of the console, the host objects (layers, database connections,
    cursors), the project's layer registry, the console output and the
    trace of calls made into the host and the database driver.  Whether a
    host or driver call raises is decided by an oracle of the environment,
    indexed by the position of the call in the trace, so that every fault
    of every call can be studied. *)

From Stdlib Require Import String ZArith List Bool.
From stdpp Require Import base gmap strings list.

Open Scope string_scope.
Open Scope list_scope.

(* ------------------------------------------------------------------ *)
(** ** Python exceptions *)

(** The exception classes the scripts can meet.  [KeyboardInterrupt] and
    [SystemExit] derive from [BaseException] only; every other class
    derives from [Exception]; [Psycopg2Error] stands for [psycopg2.Error]
    and its subclasses ([OperationalError], [ProgrammingError], ...). *)
Inductive py_exc_class :=
| RuntimeError
| NameError
| AttributeError
| TypeError
| ImportError
| Psycopg2Error
| KeyboardInterrupt
| SystemExit.

Record exn := mkExn { exn_cls : py_exc_class; exn_msg : string }.

Definition is_Exception (c : py_exc_class) : bool :=
  match c with
  | KeyboardInterrupt | SystemExit => false
  | _ => true
  end.

Definition is_psycopg2_Error (c : py_exc_class) : bool :=
  match c with Psycopg2Error => true | _ => false end.

(** [except (Exception, psycopg2.Error) as error:] *)
Definition handler_matches (e : exn) : bool :=
  is_Exception (exn_cls e) || is_psycopg2_Error (exn_cls e).

(* ------------------------------------------------------------------ *)
(** ** Values and host objects *)

(** [QVariant] type codes used for fields. *)
Inductive qvariant_type := QVariant_Int | QVariant_String | QVariant_DateTime.

(** A [QgsField]: a name and a type. *)
Record QgsField := mkField { field_name : string; field_type : qvariant_type }.

(** Host singletons reachable from the console. *)
Inductive host_kind := HIface | HMapCanvas | HTemporalController | HProject.

(** Python values held by the console's global variables. *)
#[local] Set Warnings "-register-all".
Inductive value :=
| VNone
| VBool (b : bool)
| VInt (z : Z)
| VStr (s : string)
| VRef (r : nat)              (** a host object stored in the heap *)
| VProvider (layer : nat)     (** [layer.dataProvider()] *)
| VTemporalProps (layer : nat)(** [layer.temporalProperties()] *)
| VHost (h : host_kind)
| VModule (m : string)
| VFunc (f : string)
| VRange (lo hi : Z)          (** a [QgsDateTimeRange] *)
| VTrip (raw : string)        (** a MobilityDB temporal value, decoded *)
| VTuple (l : list value)
| VList (l : list value).

(** Python truth value, as used by [if connection:].  A psycopg2
    connection object defines neither [__bool__] nor [__len__]. *)
Definition truthy (v : value) : bool :=
  match v with
  | VNone => false
  | VBool b => b
  | VInt z => negb (Z.eqb z 0)
  | VStr s => negb (String.eqb s "")
  | VTuple l | VList l => negb (Nat.eqb (length l) 0)
  | _ => true
  end.

(** A [QgsVectorLayer] with its data provider's fields, the layer's own
    field list (refreshed by [updateFields]) and its temporal properties. *)
Record layer := mkLayer {
  l_geom : string;
  l_name : string;
  l_provider_key : string;
  l_provider_fields : list QgsField;
  l_fields : list QgsField;
  tp_active : bool;
  tp_mode : Z;
  tp_start_field : string }.

(** A fresh layer: no fields, temporal properties inactive in mode 0
    ([ModeFixedTemporalRange]) with no start field. *)
Definition new_layer (g n p : string) : layer :=
  mkLayer g n p [] [] false 0 "".

(** A psycopg2 connection: open flag, autocommit, MobilityDB adapters
    registered. A cursor: its connection and the rows of its last query. *)
Inductive obj :=
| OLayer (l : layer)
| OConn (opened : bool) (autocommit : bool) (registered : bool)
| OCursor (conn : nat) (pending : option (list value)).

(** Calls into the host and the database driver, as recorded in the trace. *)
Inductive event :=
| EvImport (m : string)
| EvMapCanvas
| EvTemporalController
| EvCurrentFrameNumber
| EvDateTimeRangeForFrameNumber (n : Z)
| EvConnect (host database user password : string)
| EvSetAutocommit (c : nat) (b : bool)
| EvRegister (c : nat)
| EvCursor (c : nat)
| EvExecute (cur : nat) (query : string) (params : option (list value))
| EvFetchall (cur : nat)
| EvClose (c : nat)
| EvNewVectorLayer (geom name provider : string)
| EvDataProvider (l : nat)
| EvAddAttributes (l : nat) (fs : list QgsField)
| EvUpdateFields (l : nat)
| EvTemporalProperties (l : nat)
| EvSetIsActive (l : nat) (b : bool)
| EvSetMode (l : nat) (m : Z)
| EvSetStartField (l : nat) (f : string)
| EvProjectInstance
| EvAddMapLayer (l : nat).

(** The environment: the oracle telling which call raises (by its index in
    the trace), the temporal controller and the table [trips_test]. *)
Record env := mkEnv {
  oracle : nat -> option exn;
  tc_frame : Z;
  tc_range : Z -> Z * Z;
  trips_test : list (option string) }.

Record st := mkSt {
  st_globals : gmap string value;
  st_heap : gmap nat obj;
  st_next : nat;
  st_registry : list nat;
  st_console : list string;
  st_trace : list event }.

Definition set_globals (g : gmap string value) (s : st) : st :=
  mkSt g (st_heap s) (st_next s) (st_registry s) (st_console s) (st_trace s).
Definition set_heap (h : gmap nat obj) (s : st) : st :=
  mkSt (st_globals s) h (st_next s) (st_registry s) (st_console s) (st_trace s).
Definition set_next (n : nat) (s : st) : st :=
  mkSt (st_globals s) (st_heap s) n (st_registry s) (st_console s) (st_trace s).
Definition set_registry (r : list nat) (s : st) : st :=
  mkSt (st_globals s) (st_heap s) (st_next s) r (st_console s) (st_trace s).
Definition set_console (c : list string) (s : st) : st :=
  mkSt (st_globals s) (st_heap s) (st_next s) (st_registry s) c (st_trace s).
Definition set_trace (t : list event) (s : st) : st :=
  mkSt (st_globals s) (st_heap s) (st_next s) (st_registry s) (st_console s) t.

(* ------------------------------------------------------------------ *)
(** ** The monad *)

Inductive result (A : Type) := Ok (a : A) | Raise (e : exn).
Arguments Ok {A} a.
Arguments Raise {A} e.

Definition M (A : Type) : Type := env -> st -> st * result A.

Definition ret {A} (a : A) : M A := fun _ s => (s, Ok a).

Definition bind {A B} (m : M A) (k : A -> M B) : M B := fun e s =>
  match m e s with
  | (s', Ok a) => k a e s'
  | (s', Raise x) => (s', Raise x)
  end.

Definition raise {A} (x : exn) : M A := fun _ s => (s, Raise x).

Global Instance M_ret : MRet M := fun A a => ret a.
Global Instance M_bind : MBind M := fun A B k m => bind m k.

Definition get : M st := fun _ s => (s, Ok s).
Definition modify (f : st -> st) : M unit := fun _ s => (f s, Ok tt).
Definition ask : M env := fun e s => (s, Ok e).

(** A call into the host or the driver: recorded in the trace, then raises
    if the oracle says so. *)
Definition host_call (ev : event) : M unit := fun e s =>
  let s' := set_trace (st_trace s ++ [ev]) s in
  match oracle e (length (st_trace s)) with
  | Some x => (s', Raise x)
  | None => (s', Ok tt)
  end.

(** Global variables: [x = v], reading [x] ([NameError] when unbound). *)
Definition assign (x : string) (v : value) : M unit :=
  modify (fun s => set_globals (<[x := v]> (st_globals s)) s).

Definition unbind (x : string) : M unit :=
  modify (fun s => set_globals (delete x (st_globals s)) s).

Definition lookup_var (x : string) : M value := fun _ s =>
  match st_globals s !! x with
  | Some v => (s, Ok v)
  | None => (s, Raise (mkExn NameError (String.append "name '" (String.append x "' is not defined"))))
  end.

Definition attr_error {A} : M A := raise (mkExn AttributeError "attribute error").

(** Heap: allocation of a fresh object, reading and writing. *)
Definition alloc (o : obj) : M nat := fun _ s =>
  let r := st_next s in
  (set_next (S r) (set_heap (<[r := o]> (st_heap s)) s), Ok r).

Definition load (r : nat) : M obj := fun _ s =>
  match st_heap s !! r with
  | Some o => (s, Ok o)
  | None => (s, Raise (mkExn RuntimeError "wrapped C/C++ object has been deleted"))
  end.

Definition store (r : nat) (o : obj) : M unit :=
  modify (fun s => set_heap (<[r := o]> (st_heap s)) s).

Definition load_layer (r : nat) : M layer :=
  o ← load r; match o with OLayer l => ret l | _ => attr_error end.

Definition update_layer (r : nat) (f : layer -> layer) : M unit :=
  l ← load_layer r; store r (OLayer (f l)).

Definition layer_of (v : value) : M nat :=
  match v with VRef r => ret r | _ => attr_error end.
Definition provider_of (v : value) : M nat :=
  match v with VProvider r => ret r | _ => attr_error end.
Definition tprops_of (v : value) : M nat :=
  match v with VTemporalProps r => ret r | _ => attr_error end.

(** Python statements run in sequence; an exception stops the sequence. *)
Fixpoint run_lines (ls : list (M unit)) : M unit :=
  match ls with
  | [] => ret tt
  | l :: ls' => l ;; run_lines ls'
  end.

(** [try: body except <matches> as error: handler finally: fin].  An
    exception of the handler propagates after [fin]; an exception of
    [fin] replaces any pending one. *)
Definition try_except_finally (body : M unit) (matches : exn -> bool)
    (handler : exn -> M unit) (fin : M unit) : M unit := fun e s =>
  let '(s1, r1) := body e s in
  let '(s2, r2) :=
    match r1 with
    | Ok _ => (s1, Ok tt)
    | Raise x => if matches x then handler x e s1 else (s1, Raise x)
    end in
  let '(s3, r3) := fin e s2 in
  match r3 with
  | Raise x => (s3, Raise x)
  | Ok _ => (s3, r2)
  end.

(* ------------------------------------------------------------------ *)
(** ** create_temporal_layer.py (the Layer Initializer) *)

Definition time_field : QgsField := mkField "time" QVariant_DateTime.

(** [QgsVectorLayer(geom, name, provider)]: a new layer object. *)
Definition QgsVectorLayer (g n p : string) : M nat :=
  host_call (EvNewVectorLayer g n p) ;; alloc (OLayer (new_layer g n p)).

(** [QgsProject.instance().addMapLayer(layer)]: a layer whose id is
    already registered is not added a second time. *)
Definition addMapLayer (r : nat) : M unit :=
  host_call (EvAddMapLayer r) ;;
  modify (fun s => if decide (r ∈ st_registry s) then s
                   else set_registry (st_registry s ++ [r]) s).

(** Line 3: [vlayer = QgsVectorLayer("Point", "points_3", "memory")] *)
Definition ctl_line3 : M unit :=
  r ← QgsVectorLayer "Point" "points_3" "memory"; assign "vlayer" (VRef r).

(** Line 4: [pr = vlayer.dataProvider()] *)
Definition ctl_line4 : M unit :=
  v ← lookup_var "vlayer"; r ← layer_of v; _ ← load_layer r;
  host_call (EvDataProvider r) ;; assign "pr" (VProvider r).

(** Line 5: [pr.addAttributes([QgsField("time", QVariant.DateTime)])] *)
Definition ctl_line5 : M unit :=
  v ← lookup_var "pr"; r ← provider_of v;
  host_call (EvAddAttributes r [time_field]) ;;
  update_layer r (fun l => mkLayer (l_geom l) (l_name l) (l_provider_key l)
    (l_provider_fields l ++ [time_field]) (l_fields l)
    (tp_active l) (tp_mode l) (tp_start_field l)).

(** [vlayer.updateFields()]: the layer's field list is refreshed from its
    data provider. *)
Definition updateFields_vlayer : M unit :=
  v ← lookup_var "vlayer"; r ← layer_of v;
  host_call (EvUpdateFields r) ;;
  update_layer r (fun l => mkLayer (l_geom l) (l_name l) (l_provider_key l)
    (l_provider_fields l) (l_provider_fields l)
    (tp_active l) (tp_mode l) (tp_start_field l)).

(** Line 6: [vlayer.updateFields()] *)
Definition ctl_line6 : M unit := updateFields_vlayer.

(** Line 7: [tp = vlayer.temporalProperties()] *)
Definition ctl_line7 : M unit :=
  v ← lookup_var "vlayer"; r ← layer_of v; _ ← load_layer r;
  host_call (EvTemporalProperties r) ;; assign "tp" (VTemporalProps r).

(** Line 8: [tp.setIsActive(True)] *)
Definition ctl_line8 : M unit :=
  v ← lookup_var "tp"; r ← tprops_of v;
  host_call (EvSetIsActive r true) ;;
  update_layer r (fun l => mkLayer (l_geom l) (l_name l) (l_provider_key l)
    (l_provider_fields l) (l_fields l) true (tp_mode l) (tp_start_field l)).

(** Line 9: [tp.setMode(1) #single field with datetime] *)
Definition ctl_line9 : M unit :=
  v ← lookup_var "tp"; r ← tprops_of v;
  host_call (EvSetMode r 1) ;;
  update_layer r (fun l => mkLayer (l_geom l) (l_name l) (l_provider_key l)
    (l_provider_fields l) (l_fields l) (tp_active l) 1 (tp_start_field l)).

(** Line 10: [tp.setStartField("time")] *)
Definition ctl_line10 : M unit :=
  v ← lookup_var "tp"; r ← tprops_of v;
  host_call (EvSetStartField r "time") ;;
  update_layer r (fun l => mkLayer (l_geom l) (l_name l) (l_provider_key l)
    (l_provider_fields l) (l_fields l) (tp_active l) (tp_mode l) "time").

(** Line 11: [vlayer.updateFields()] *)
Definition ctl_line11 : M unit := updateFields_vlayer.

(** Line 12: [QgsProject.instance().addMapLayer(vlayer)] *)
Definition ctl_line12 : M unit :=
  host_call EvProjectInstance ;;
  v ← lookup_var "vlayer"; r ← layer_of v; _ ← load_layer r; addMapLayer r.

Definition create_temporal_layer_lines : list (M unit) :=
  [ctl_line3; ctl_line4; ctl_line5; ctl_line6; ctl_line7; ctl_line8;
   ctl_line9; ctl_line10; ctl_line11; ctl_line12].

Definition create_temporal_layer : M unit :=
  run_lines create_temporal_layer_lines.

(* ------------------------------------------------------------------ *)
(** ** import_rows_to_memory.py (the Trip Row Importer) *)

Definition conn_of (v : value) : M nat :=
  match v with
  | VRef r => o ← load r; match o with OConn _ _ _ => ret r | _ => attr_error end
  | _ => attr_error
  end.

Definition cursor_of (v : value) : M nat :=
  match v with
  | VRef r => o ← load r; match o with OCursor _ _ => ret r | _ => attr_error end
  | _ => attr_error
  end.

(** A value of the [trip] column as the driver returns it: SQL NULL is
    [None]; once the MobilityDB adapters are registered on the connection
    a value is decoded into a temporal object, otherwise it stays a
    string. *)
Definition decode_trip (registered : bool) (c : option string) : value :=
  match c with
  | None => VNone
  | Some raw => if registered then VTrip raw else VStr raw
  end.

(** Line 2: [import psycopg2] *)
Definition irm_line2 : M unit :=
  host_call (EvImport "psycopg2") ;; assign "psycopg2" (VModule "psycopg2").

(** Line 3: [from mobilitydb.psycopg import register] *)
Definition irm_line3 : M unit :=
  host_call (EvImport "mobilitydb.psycopg") ;; assign "register" (VFunc "register").

(** Line 4: [canvas = iface.mapCanvas()] *)
Definition irm_line4 : M unit :=
  host_call EvMapCanvas ;; assign "canvas" (VHost HMapCanvas).

(** Line 5: [temporalController = canvas.temporalController()] *)
Definition irm_line5 : M unit :=
  v ← lookup_var "canvas";
  match v with
  | VHost HMapCanvas =>
      host_call EvTemporalController ;;
      assign "temporalController" (VHost HTemporalController)
  | _ => attr_error
  end.

(** Line 6: [currentFrameNumber = temporalController.currentFrameNumber()] *)
Definition irm_line6 : M unit :=
  v ← lookup_var "temporalController";
  match v with
  | VHost HTemporalController =>
      host_call EvCurrentFrameNumber ;;
      e ← ask; assign "currentFrameNumber" (VInt (tc_frame e))
  | _ => attr_error
  end.

(** Line 8: [connection = None] *)
Definition irm_line8 : M unit := assign "connection" VNone.

(** Line 12: [connection = psycopg2.connect(host='localhost',
    database='postgres', user='postgres', password='postgres')] *)
Definition irm_line12 : M unit :=
  m ← lookup_var "psycopg2";
  match m with
  | VModule name =>
      if String.eqb name "psycopg2" then
        host_call (EvConnect "localhost" "postgres" "postgres" "postgres") ;;
        c ← alloc (OConn true false false); assign "connection" (VRef c)
      else attr_error
  | _ => attr_error
  end.

(** Line 13: [connection.autocommit = True] *)
Definition irm_line13 : M unit :=
  v ← lookup_var "connection"; c ← conn_of v;
  host_call (EvSetAutocommit c true) ;;
  o ← load c;
  match o with
  | OConn op _ rg => store c (OConn op true rg)
  | _ => attr_error
  end.

(** Line 16: [register(connection)] *)
Definition irm_line16 : M unit :=
  f ← lookup_var "register"; v ← lookup_var "connection";
  match f with
  | VFunc name =>
      if String.eqb name "register" then
        c ← conn_of v; host_call (EvRegister c) ;;
        o ← load c;
        match o with
        | OConn op ac _ => store c (OConn op ac true)
        | _ => attr_error
        end
      else raise (mkExn TypeError "object is not callable")
  | _ => raise (mkExn TypeError "object is not callable")
  end.

(** Line 19: [cursor = connection.cursor()] *)
Definition irm_line19 : M unit :=
  v ← lookup_var "connection"; c ← conn_of v;
  host_call (EvCursor c) ;;
  k ← alloc (OCursor c None); assign "cursor" (VRef k).

(** Line 22: [select_query = "SELECT trip FROM trips_test"] *)
Definition irm_line22 : M unit :=
  assign "select_query" (VStr "SELECT trip FROM trips_test").

(** Line 23: [dtrange = temporalController.dateTimeRangeForFrameNumber(
    currentFrameNumber)] *)
Definition irm_line23 : M unit :=
  t ← lookup_var "temporalController"; n ← lookup_var "currentFrameNumber";
  match t, n with
  | VHost HTemporalController, VInt k =>
      host_call (EvDateTimeRangeForFrameNumber k) ;;
      e ← ask; assign "dtrange" (VRange (fst (tc_range e k)) (snd (tc_range e k)))
  | VHost HTemporalController, _ => raise (mkExn TypeError "wrong argument type")
  | _, _ => attr_error
  end.

(** Line 25: [cursor.execute(select_query)]: the query has no parameters;
    its result is the [trip] column of every row of [trips_test], each row
    a 1-tuple. *)
Definition irm_line25 : M unit :=
  v ← lookup_var "cursor"; k ← cursor_of v; q ← lookup_var "select_query";
  match q with
  | VStr qs =>
      host_call (EvExecute k qs None) ;;
      o ← load k;
      match o with
      | OCursor c _ =>
          oc ← load c;
          match oc with
          | OConn _ _ rg =>
              e ← ask;
              store k (OCursor c (Some (map (fun t => VTuple [decode_trip rg t])
                                            (trips_test e))))
          | _ => attr_error
          end
      | _ => attr_error
      end
  | _ => raise (mkExn TypeError "argument 1 must be a string")
  end.

(** Line 26: [rows = cursor.fetchall()] *)
Definition irm_line26 : M unit :=
  v ← lookup_var "cursor"; k ← cursor_of v;
  host_call (EvFetchall k) ;;
  o ← load k;
  match o with
  | OCursor c (Some rs) => store k (OCursor c (Some [])) ;; assign "rows" (VList rs)
  | OCursor _ None => raise (mkExn Psycopg2Error "no results to fetch")
  | _ => attr_error
  end.

(** Lines 10-36: the [try] block. *)
Definition irm_try_body : M unit :=
  run_lines [irm_line12; irm_line13; irm_line16; irm_line19; irm_line22;
             irm_line23; irm_line25; irm_line26].

Definition error_prefix : string := "Error while connecting to PostgreSQL".

(** Lines 37-38: [except (Exception, psycopg2.Error) as error:
    print("Error while connecting to PostgreSQL", error)]; as in Python 3,
    the name [error] is unbound when the handler ends. *)
Definition irm_handler (x : exn) : M unit :=
  assign "error" (VStr (exn_msg x)) ;;
  modify (fun s => set_console (st_console s ++ [String.append error_prefix (String.append " " (exn_msg x))]) s) ;;
  unbind "error".

(** Lines 40-43: [finally: if connection: connection.close()] *)
Definition irm_finally : M unit :=
  v ← lookup_var "connection";
  if truthy v then
    c ← conn_of v; host_call (EvClose c) ;;
    o ← load c;
    match o with
    | OConn _ ac rg => store c (OConn false ac rg)
    | _ => attr_error
    end
  else ret tt.

Definition irm_prefix_lines : list (M unit) :=
  [irm_line2; irm_line3; irm_line4; irm_line5; irm_line6; irm_line8].

Definition irm_try : M unit :=
  try_except_finally irm_try_body handler_matches irm_handler irm_finally.

Definition import_rows_to_memory : M unit :=
  run_lines irm_prefix_lines ;; irm_try.

(* ------------------------------------------------------------------ *)
(** ** Well-formed host states and the fault-free environment *)

(** Every registered layer id and every object reference held by a global
    variable was allocated before. *)
Definition wf_state (s : st) : Prop :=
  Forall (fun r => r < st_next s) (st_registry s) /\
  (forall x r, st_globals s !! x = Some (VRef r) -> r < st_next s).

(** No host or driver call raises. *)
Definition no_fault : nat -> option exn := fun _ => None.

(** The events of the trace added since state [s0]. *)
Definition new_events (s0 s1 : st) : list event :=
  drop (length (st_trace s0)) (st_trace s1).

Definition is_close (ev : event) : bool :=
  match ev with EvClose _ => true | _ => false end.

Definition count_close (evs : list event) : nat :=
  length (filter (fun ev => is_close ev = true) evs).

(** The queries handed to [cursor.execute], with their parameters. *)
Definition executed_queries (evs : list event) : list (string * option (list value)) :=
  flat_map (fun ev => match ev with EvExecute _ q p => [(q, p)] | _ => [] end) evs.

(** Examples of runs: a fault-free environment and a fresh console. *)
Definition env_ok : env := mkEnv no_fault 7 (fun k => (k, (k + 1)%Z)) [Some "trip1"; None].
Definition st_empty : st := mkSt ∅ ∅ 0 [] [] [].

(** [no_fault_from o n k]: none of the [k] host calls numbered [n],
    [n + 1], ... raises under the fault oracle [o]. *)
Fixpoint no_fault_from (o : nat -> option exn) (n k : nat) : bool :=
  match k with
  | 0 => true
  | S k' => match o n with Some _ => false | None => no_fault_from o (S n) k' end
  end.

(** The calls of the lines before [try] when none of them raises. *)
Definition irm_prefix_events : list event :=
  [EvImport "psycopg2"; EvImport "mobilitydb.psycopg"; EvMapCanvas;
   EvTemporalController; EvCurrentFrameNumber].

(** The calls of the [try] block when none of them raises, for the
    connection [c] and the frame number [k]. *)
Definition irm_body_calls (c : nat) (k : Z) : list event :=
  [EvConnect "localhost" "postgres" "postgres" "postgres"; EvSetAutocommit c true;
   EvRegister c; EvCursor c; EvDateTimeRangeForFrameNumber k;
   EvExecute (S c) "SELECT trip FROM trips_test" None; EvFetchall (S c)].

(** The message printed by the handler for the exception [x]. *)
Definition error_line (x : exn) : string :=
  String.append error_prefix (String.append " " (exn_msg x)).


(** An environment in which [cursor.execute] (the eleventh call of a run
    from a fresh console) is interrupted by [KeyboardInterrupt]. *)
Definition env_interrupt_at_execute : env :=
  mkEnv (fun n => if Nat.eqb n 10 then Some (mkExn KeyboardInterrupt "") else None)
        7 (fun k => (k, (k + 1)%Z)) [Some "trip1"; None].

(** An environment in which [psycopg2.connect] fails with a driver error. *)
Definition env_connect_fails : env :=
  mkEnv (fun n => if Nat.eqb n 5
                  then Some (mkExn Psycopg2Error "connection refused") else None)
        7 (fun k => (k, (k + 1)%Z)) [].

(** An environment in which [cursor.execute] fails with a driver error. *)
Definition env_execute_fails : env :=
  mkEnv (fun n => if Nat.eqb n 10
                  then Some (mkExn Psycopg2Error "relation does not exist") else None)
        7 (fun k => (k, (k + 1)%Z)) [].

(* ------------------------------------------------------------------ *)
(** ** A weakest-precondition calculus for [M] *)

Definition wp {A} (m : M A) (Q : result A -> st -> Prop) (e : env) (s : st) : Prop :=
  let '(s', r) := m e s in Q r s'.

Section WP.
Context {A B : Type}.

Lemma wp_bind (m : M A) (k : A -> M B) Q e s :
  wp m (fun r s' => match r with
                    | Ok a => wp (k a) Q e s'
                    | Raise x => Q (Raise x) s'
                    end) e s ->
  wp (bind m k) Q e s.
Proof. unfold wp, bind. destruct (m e s) as [s' [a|x]]; auto. Qed.

Lemma wp_mbind (m : M A) (k : A -> M B) Q e s :
  wp m (fun r s' => match r with
                    | Ok a => wp (k a) Q e s'
                    | Raise x => Q (Raise x) s'
                    end) e s ->
  wp (mbind k m) Q e s.
Proof. apply wp_bind. Qed.

Lemma wp_ret (a : A) (Q : result A -> st -> Prop) e s : Q (Ok a) s -> wp (ret a) Q e s.
Proof. done. Qed.

Lemma wp_raise x (Q : result A -> st -> Prop) e s : Q (Raise x) s -> wp (raise x) Q e s.
Proof. done. Qed.

Lemma wp_weaken (m : M A) (Q Q' : result A -> st -> Prop) e s :
  (forall r s', Q r s' -> Q' r s') -> wp m Q e s -> wp m Q' e s.
Proof. unfold wp. destruct (m e s). auto. Qed.

End WP.

Lemma wp_host_call ev Q e s :
  match oracle e (length (st_trace s)) with
  | Some x => Q (Raise x) (set_trace (st_trace s ++ [ev]) s)
  | None => Q (Ok tt) (set_trace (st_trace s ++ [ev]) s)
  end -> wp (host_call ev) Q e s.
Proof. unfold wp, host_call. destruct (oracle e _); done. Qed.

Lemma wp_lookup_var x Q e s :
  match st_globals s !! x with
  | Some v => Q (Ok v) s
  | None => Q (Raise (mkExn NameError (String.append "name '" (String.append x "' is not defined")))) s
  end -> wp (lookup_var x) Q e s.
Proof. unfold wp, lookup_var. destruct (_ !! x); done. Qed.

Lemma wp_modify f Q e s : Q (Ok tt) (f s) -> wp (modify f) Q e s.
Proof. done. Qed.

Lemma wp_assign x v Q e s :
  Q (Ok tt) (set_globals (<[x := v]> (st_globals s)) s) -> wp (assign x v) Q e s.
Proof. done. Qed.

Lemma wp_unbind x Q e s :
  Q (Ok tt) (set_globals (delete x (st_globals s)) s) -> wp (unbind x) Q e s.
Proof. done. Qed.

Lemma wp_ask Q e s : Q (Ok e) s -> wp ask Q e s.
Proof. done. Qed.

Lemma wp_alloc o Q e s :
  Q (Ok (st_next s)) (set_next (S (st_next s)) (set_heap (<[st_next s := o]> (st_heap s)) s)) ->
  wp (alloc o) Q e s.
Proof. done. Qed.

Lemma wp_load r Q e s :
  match st_heap s !! r with
  | Some o => Q (Ok o) s
  | None => Q (Raise (mkExn RuntimeError "wrapped C/C++ object has been deleted")) s
  end -> wp (load r) Q e s.
Proof. unfold wp, load. destruct (_ !! r); done. Qed.

Lemma wp_store r o Q e s :
  Q (Ok tt) (set_heap (<[r := o]> (st_heap s)) s) -> wp (store r o) Q e s.
Proof. done. Qed.

Lemma wp_try_except_finally (body : M unit) (matches : exn -> bool)
    (handler : exn -> M unit) (fin : M unit) (Q : result unit -> st -> Prop) e s :
  wp body (fun r1 s1 =>
    wp (match r1 with
        | Ok _ => ret (A:=unit) tt
        | Raise x => if matches x then handler x else raise x
        end) (fun r2 s2 =>
      wp fin (fun r3 s3 =>
        match r3 with
        | Raise x => Q (Raise x) s3
        | Ok _ => Q r2 s3
        end) e s2) e s1) e s ->
  wp (try_except_finally body matches handler fin) Q e s.
Proof.
  unfold wp, try_except_finally.
  destruct (body e s) as [s1 [a1|x1]]; cbn.
  - destruct (fin e s1) as [s3 [a3|x3]]; done.
  - destruct (matches x1); cbn.
    + destruct (handler x1 e s1) as [s2 r2]. destruct (fin e s2) as [s3 [a3|x3]]; done.
    + destruct (fin e s1) as [s3 [a3|x3]]; done.
Qed.

Lemma wp_run_lines_cons l ls Q e s :
  wp (mbind (M:=M) (fun _ : unit => run_lines ls) l) Q e s -> wp (run_lines (l :: ls)) Q e s.
Proof. done. Qed.

Lemma wp_run_lines_nil Q e s : Q (Ok tt) s -> wp (run_lines []) Q e s.
Proof. done. Qed.

Ltac simpl_st :=
  unfold set_globals, set_heap, set_next, set_registry, set_console, set_trace in *;
  cbn [st_globals st_heap st_next st_registry st_console st_trace] in *.

Ltac head_of t := match t with ?f _ => head_of f | _ => t end.

(** One step of symbolic execution. *)
Ltac wp_step :=
  match goal with
  | |- wp (bind _ _) _ _ _ => apply wp_bind; simpl_st
  | |- wp (mbind _ _) _ _ _ => apply wp_mbind; simpl_st
  | |- wp (ret _) _ _ _ => apply wp_ret
  | |- wp (mret _) _ _ _ => apply wp_ret
  | |- wp (raise _) _ _ _ => apply wp_raise
  | |- wp attr_error _ _ _ => apply wp_raise
  | |- wp (run_lines (_ :: _)) _ _ _ => apply wp_run_lines_cons
  | |- wp (run_lines []) _ _ _ => apply wp_run_lines_nil
  | |- wp (try_except_finally _ _ _ _) _ _ _ => apply wp_try_except_finally
  | |- wp (host_call _) _ _ _ => apply wp_host_call
  | |- wp (lookup_var _) _ _ _ => apply wp_lookup_var
  | |- wp (modify _) _ _ _ => apply wp_modify
  | |- wp (assign _ _) _ _ _ => apply wp_assign
  | |- wp (unbind _) _ _ _ => apply wp_unbind
  | |- wp ask _ _ _ => apply wp_ask
  | |- wp (alloc _) _ _ _ => apply wp_alloc
  | |- wp (load _) _ _ _ => apply wp_load
  | |- wp (store _ _) _ _ _ => apply wp_store
  | |- wp (if ?b then _ else _) _ _ _ =>
      let E := fresh "Eb" in
      destruct b eqn:E; try (exfalso; vm_compute in E; discriminate E)
  | |- wp (match ?v with _ => _ end) _ _ _ => destruct v eqn:?
  | H : forall n, oracle ?e n = None |- match oracle ?e ?n with _ => _ end =>
      rewrite H
  | |- match oracle ?e ?n with _ => _ end =>
      let E := fresh "Eo" in destruct (oracle e n) eqn:E
  | H : ?m !! ?k = Some _ |- match ?m !! ?k with _ => _ end => rewrite H
  | |- match ?x with _ => _ end => progress (simpl_st; simplify_map_eq)
  | |- match ?x with _ => _ end => destruct x eqn:?
  | |- match ?x with _ => _ end => progress cbn beta iota
  | |- wp (run_lines ?l) _ _ _ => progress (unfold l)
  | |- wp ?m _ _ _ => let h := head_of m in progress (unfold h)
  end.

Ltac to_wp :=
  lazymatch goal with
  | |- match ?m ?e ?s with _ => _ end => refine (_ : wp m _ e s)
  end.

(* ------------------------------------------------------------------ *)
(** ** The Layer Initializer *)

(** The layer object built by a complete run of the script. *)
Definition points_3_layer : layer :=
  mkLayer "Point" "points_3" "memory" [time_field] [time_field] true 1 "time".

(** The calls a complete run of the script makes, on the layer [r]. *)
Definition ctl_events (r : nat) : list event :=
  [EvNewVectorLayer "Point" "points_3" "memory"; EvDataProvider r;
   EvAddAttributes r [time_field]; EvUpdateFields r; EvTemporalProperties r;
   EvSetIsActive r true; EvSetMode r 1; EvSetStartField r "time";
   EvUpdateFields r; EvProjectInstance; EvAddMapLayer r].

Lemma wf_st_empty : wf_state st_empty.
Proof. split; [constructor|]. intros x r H. cbn in H. by rewrite lookup_empty in H. Qed.

Lemma new_events_app (s0 : st) (t : list event) :
  drop (length (st_trace s0)) (st_trace s0 ++ t) = t.
Proof. by rewrite drop_app_length. Qed.

(** A fault-free run, from any host state. *)
Lemma create_temporal_layer_fault_free (e : env) (s0 : st) :
  (forall n, oracle e n = None) ->
  let '(s1, r) := create_temporal_layer e s0 in
  r = Ok tt /\
  st_globals s1 = <["tp" := VTemporalProps (st_next s0)]>
                    (<["pr" := VProvider (st_next s0)]>
                      (<["vlayer" := VRef (st_next s0)]> (st_globals s0))) /\
  st_heap s1 = <[st_next s0 := OLayer points_3_layer]> (st_heap s0) /\
  st_next s1 = S (st_next s0) /\
  st_registry s1 = (if decide (st_next s0 ∈ st_registry s0) then st_registry s0
                    else st_registry s0 ++ [st_next s0]) /\
  st_console s1 = st_console s0 /\
  st_trace s1 = st_trace s0 ++ ctl_events (st_next s0).
Proof.
  intros Hnf. to_wp. repeat wp_step. simpl_st.
  rewrite !insert_insert_eq, <- !app_assoc.
  case_decide; simpl_st; repeat split; done.
Qed.

Lemma run_lines_app (l1 l2 : list (M unit)) e s :
  run_lines (l1 ++ l2) e s = bind (run_lines l1) (fun _ => run_lines l2) e s.
Proof.
  revert s. induction l1 as [|l l1 IH]; intros s; [done|].
  cbn. unfold mbind, M_bind, bind. destruct (l e s) as [s' [a|x]]; [|done].
  apply IH.
Qed.

(** A run interrupted anywhere makes a prefix of the calls of a complete
    run. *)
Lemma create_temporal_layer_events_prefix (e : env) (s0 : st) :
  let '(s1, _) := create_temporal_layer e s0 in
  new_events s0 s1 `prefix_of` ctl_events (st_next s0).
Proof.
  to_wp. unfold new_events. repeat wp_step; simpl_st; try case_decide; simpl_st;
    rewrite <- ?app_assoc, drop_app_length; cbn; eexists; reflexivity.
Qed.


(** A run of source lines 3 to 7 that does not raise leaves the new layer
    with the field [time] in its field list, temporal mode still inactive,
    and [tp] naming that layer's temporal properties. *)
Lemma create_temporal_layer_lines_3_7 (e : env) (s0 : st) :
  let '(s_mid, r) :=
    run_lines [ctl_line3; ctl_line4; ctl_line5; ctl_line6; ctl_line7] e s0 in
  match r with
  | Ok _ =>
      exists L, st_heap s_mid !! st_next s0 = Some (OLayer L) /\
        time_field ∈ l_fields L /\ tp_active L = false /\
        st_globals s_mid !! "tp" = Some (VTemporalProps (st_next s0))
  | Raise _ => True
  end.
Proof.
  to_wp. repeat wp_step; simpl_st; try done.
  eexists. rewrite !lookup_insert_eq. split; [reflexivity|]. cbn.
  split; [by left|]. done.
Qed.

(* ------------------------------------------------------------------ *)
(** ** Claims on the Layer Initializer *)

(** C1: after one fault-free run of create_temporal_layer.py, the project's
    layer registry holds exactly one new layer: a memory point layer with
    the fixed name [points_3], whose field list has the datetime field
    [time], and whose temporal properties are active, in mode 1 (single
    field with datetime), with start field [time]. *)
Theorem C1_single_run_registers_temporal_layer (e : env) (s0 : st) :
  (forall n, oracle e n = None) -> wf_state s0 ->
  let '(s1, r) := create_temporal_layer e s0 in
  r = Ok tt /\
  exists id L,
    st_registry s1 = st_registry s0 ++ [id] /\ (id ∉ st_registry s0) /\
    st_heap s1 !! id = Some (OLayer L) /\
    l_geom L = "Point" /\ l_provider_key L = "memory" /\ l_name L = "points_3" /\
    (mkField "time" QVariant_DateTime ∈ l_fields L) /\
    tp_active L = true /\ tp_mode L = 1%Z /\ tp_start_field L = "time".
Proof.
  intros Hnf Hwf.
  assert (Hfresh : st_next s0 ∉ st_registry s0).
  { intros Hin. destruct Hwf as [Hwf _]. rewrite Forall_forall in Hwf.
    apply Hwf in Hin. lia. }
  pose proof (create_temporal_layer_fault_free e s0 Hnf) as Hrun.
  destruct (create_temporal_layer e s0) as [s1 r].
  destruct Hrun as (-> & _ & Hheap & _ & Hreg & _).
  split; [done|]. exists (st_next s0), points_3_layer.
  rewrite Hreg, decide_False by done. rewrite Hheap, lookup_insert_eq.
  repeat split; try done. by left.
Qed.

Lemma C1_single_run_registers_temporal_layer_witness :
  (forall n, oracle env_ok n = None) /\ wf_state st_empty /\
  let '(s1, r) := create_temporal_layer env_ok st_empty in
  r = Ok tt /\
  exists id L,
    st_registry s1 = st_registry st_empty ++ [id] /\ (id ∉ st_registry st_empty) /\
    st_heap s1 !! id = Some (OLayer L) /\
    l_geom L = "Point" /\ l_provider_key L = "memory" /\ l_name L = "points_3" /\
    (mkField "time" QVariant_DateTime ∈ l_fields L) /\
    tp_active L = true /\ tp_mode L = 1%Z /\ tp_start_field L = "time".
Proof.
  split; [reflexivity|]. split; [apply wf_st_empty|].
  apply C1_single_run_registers_temporal_layer; [reflexivity | apply wf_st_empty].
Defined.

(** C5: in create_temporal_layer.py the field [time] is added to the data
    provider and committed with [updateFields] before any temporal
    configuration step: the calls of any run (complete or interrupted by a
    fault) are a prefix of [ctl_events], where [addAttributes] and
    [updateFields] come before [setIsActive], [setMode] and
    [setStartField]; and the state in which line 8 ([tp.setIsActive(True)])
    starts, the one left by lines 3 to 7, has [time] in the layer's field
    list. *)
Theorem C5_time_field_committed_before_temporal_config (e : env) (s0 : st) :
  create_temporal_layer_lines =
    [ctl_line3; ctl_line4; ctl_line5; ctl_line6; ctl_line7] ++
    [ctl_line8; ctl_line9; ctl_line10; ctl_line11; ctl_line12] /\
  create_temporal_layer e s0 =
    bind (run_lines [ctl_line3; ctl_line4; ctl_line5; ctl_line6; ctl_line7])
         (fun _ => run_lines [ctl_line8; ctl_line9; ctl_line10; ctl_line11; ctl_line12])
         e s0 /\
  (let '(s1, _) := create_temporal_layer e s0 in
   new_events s0 s1 `prefix_of` ctl_events (st_next s0)) /\
  (let '(s_mid, r) :=
     run_lines [ctl_line3; ctl_line4; ctl_line5; ctl_line6; ctl_line7] e s0 in
   match r with
   | Ok _ =>
       exists L, st_heap s_mid !! st_next s0 = Some (OLayer L) /\
         mkField "time" QVariant_DateTime ∈ l_fields L /\ tp_active L = false /\
         st_globals s_mid !! "tp" = Some (VTemporalProps (st_next s0))
   | Raise _ => True
   end).
Proof.
  split; [reflexivity|].
  split; [apply (run_lines_app [ctl_line3; ctl_line4; ctl_line5; ctl_line6; ctl_line7])|].
  split; [apply create_temporal_layer_events_prefix|].
  apply create_temporal_layer_lines_3_7.
Qed.

(** C7: two fault-free runs of create_temporal_layer.py create two distinct
    layer objects and register both; the second run leaves the first layer
    untouched. *)
Theorem C7_two_runs_two_layers (e : env) (s0 : st) :
  (forall n, oracle e n = None) -> wf_state s0 ->
  let '(s1, r1) := create_temporal_layer e s0 in
  let '(s2, r2) := create_temporal_layer e s1 in
  r1 = Ok tt /\ r2 = Ok tt /\
  exists id1 id2,
    id1 <> id2 /\
    st_registry s2 = st_registry s0 ++ [id1; id2] /\
    st_heap s2 !! id1 = Some (OLayer points_3_layer) /\
    st_heap s2 !! id2 = Some (OLayer points_3_layer) /\
    st_globals s2 !! "vlayer" = Some (VRef id2).
Proof.
  intros Hnf Hwf.
  assert (Hfresh : forall k, st_next s0 <= k -> k ∉ st_registry s0).
  { intros k Hk Hin. destruct Hwf as [Hwf _]. rewrite Forall_forall in Hwf.
    apply Hwf in Hin. lia. }
  pose proof (create_temporal_layer_fault_free e s0 Hnf) as Hrun1.
  destruct (create_temporal_layer e s0) as [s1 r1].
  destruct Hrun1 as (-> & _ & Hheap1 & Hnext1 & Hreg1 & _).
  pose proof (create_temporal_layer_fault_free e s1 Hnf) as Hrun2.
  destruct (create_temporal_layer e s1) as [s2 r2].
  destruct Hrun2 as (-> & Hglob2 & Hheap2 & _ & Hreg2 & _).
  rewrite decide_False in Hreg1 by (apply Hfresh; lia).
  rewrite Hnext1, Hreg1 in Hreg2. rewrite Hnext1, Hheap1 in Hheap2.
  rewrite decide_False in Hreg2.
  2:{ rewrite elem_of_app, list_elem_of_singleton.
      intros [Hin | Heq]; [apply (Hfresh (S (st_next s0))); [lia | done] | lia]. }
  split; [done|]. split; [done|].
  exists (st_next s0), (S (st_next s0)).
  split; [lia|].
  split; [by rewrite Hreg2, <- app_assoc|].
  rewrite Hheap2. split.
  - rewrite lookup_insert_ne by lia. by rewrite lookup_insert_eq.
  - split; [by rewrite lookup_insert_eq|].
    rewrite Hglob2, Hnext1. by simplify_map_eq.
Qed.

Lemma C7_two_runs_two_layers_witness :
  (forall n, oracle env_ok n = None) /\ wf_state st_empty /\
  let '(s1, r1) := create_temporal_layer env_ok st_empty in
  let '(s2, r2) := create_temporal_layer env_ok s1 in
  r1 = Ok tt /\ r2 = Ok tt /\
  exists id1 id2,
    id1 <> id2 /\
    st_registry s2 = st_registry st_empty ++ [id1; id2] /\
    st_heap s2 !! id1 = Some (OLayer points_3_layer) /\
    st_heap s2 !! id2 = Some (OLayer points_3_layer) /\
    st_globals s2 !! "vlayer" = Some (VRef id2).
Proof.
  split; [reflexivity|]. split; [apply wf_st_empty|].
  apply C7_two_runs_two_layers; [reflexivity | apply wf_st_empty].
Defined.

(** C8: a fault-free run of create_temporal_layer.py makes exactly the calls
    of [ctl_events], in this order: one [addAttributes] with one field, an
    [updateFields], the three temporal settings, a second [updateFields],
    then [addMapLayer]; the layer ends with exactly the field [time]. *)
Theorem C8_one_field_two_commits_then_register (e : env) (s0 : st) :
  (forall n, oracle e n = None) ->
  let '(s1, r) := create_temporal_layer e s0 in
  new_events s0 s1 =
    [EvNewVectorLayer "Point" "points_3" "memory"; EvDataProvider (st_next s0);
     EvAddAttributes (st_next s0) [mkField "time" QVariant_DateTime];
     EvUpdateFields (st_next s0);
     EvTemporalProperties (st_next s0); EvSetIsActive (st_next s0) true;
     EvSetMode (st_next s0) 1; EvSetStartField (st_next s0) "time";
     EvUpdateFields (st_next s0);
     EvProjectInstance; EvAddMapLayer (st_next s0)] /\
  exists L, st_heap s1 !! st_next s0 = Some (OLayer L) /\
    l_fields L = [mkField "time" QVariant_DateTime].
Proof.
  intros Hnf.
  pose proof (create_temporal_layer_fault_free e s0 Hnf) as Hrun.
  destruct (create_temporal_layer e s0) as [s1 r].
  destruct Hrun as (_ & _ & Hheap & _ & _ & _ & Htr).
  split.
  - unfold new_events. by rewrite Htr, drop_app_length.
  - exists points_3_layer. by rewrite Hheap, lookup_insert_eq.
Qed.

Lemma C8_one_field_two_commits_then_register_witness :
  (forall n, oracle env_ok n = None) /\
  let '(s1, r) := create_temporal_layer env_ok st_empty in
  new_events st_empty s1 =
    [EvNewVectorLayer "Point" "points_3" "memory"; EvDataProvider (st_next st_empty);
     EvAddAttributes (st_next st_empty) [mkField "time" QVariant_DateTime];
     EvUpdateFields (st_next st_empty);
     EvTemporalProperties (st_next st_empty); EvSetIsActive (st_next st_empty) true;
     EvSetMode (st_next st_empty) 1; EvSetStartField (st_next st_empty) "time";
     EvUpdateFields (st_next st_empty);
     EvProjectInstance; EvAddMapLayer (st_next st_empty)] /\
  exists L, st_heap s1 !! st_next st_empty = Some (OLayer L) /\
    l_fields L = [mkField "time" QVariant_DateTime].
Proof.
  split; [reflexivity|].
  apply C8_one_field_two_commits_then_register. reflexivity.
Defined.

(* ------------------------------------------------------------------ *)
(** ** The Trip Row Importer: the lines before [try] *)

Lemma irm_prefix_spec (e : env) (s0 : st) :
  let '(sp, r) := run_lines irm_prefix_lines e s0 in
  st_console sp = st_console s0 /\ st_next sp = st_next s0 /\
  st_heap sp = st_heap s0 /\
  st_globals sp !! "rows" = st_globals s0 !! "rows" /\
  (exists evs, st_trace sp = st_trace s0 ++ evs /\ evs `prefix_of` irm_prefix_events) /\
  match r with
  | Ok _ =>
      st_globals sp !! "psycopg2" = Some (VModule "psycopg2") /\
      st_globals sp !! "register" = Some (VFunc "register") /\
      st_globals sp !! "temporalController" = Some (VHost HTemporalController) /\
      st_globals sp !! "currentFrameNumber" = Some (VInt (tc_frame e)) /\
      st_globals sp !! "connection" = Some VNone
  | Raise _ => st_globals sp !! "connection" = st_globals s0 !! "connection"
  end.
Proof.
  to_wp. repeat wp_step; simpl_st; rewrite <- ?app_assoc;
    (split; [done|]); (split; [done|]); (split; [done|]);
    (split; [by simplify_map_eq|]);
    (split; [eexists; split; [reflexivity|]; cbn; eexists; reflexivity|]);
    by simplify_map_eq.
Qed.

(* ------------------------------------------------------------------ *)
(** ** The Trip Row Importer: the [try] block *)

Lemma irm_try_body_spec (e : env) (sp : st) (k : Z) :
  st_globals sp !! "psycopg2" = Some (VModule "psycopg2") ->
  st_globals sp !! "register" = Some (VFunc "register") ->
  st_globals sp !! "temporalController" = Some (VHost HTemporalController) ->
  st_globals sp !! "currentFrameNumber" = Some (VInt k) ->
  st_globals sp !! "connection" = Some VNone ->
  let '(sb, r) := irm_try_body e sp in
  st_console sb = st_console sp /\
  (exists evs, st_trace sb = st_trace sp ++ evs /\ count_close evs = 0 /\
     executed_queries evs `prefix_of` [("SELECT trip FROM trips_test", None)]) /\
  (st_globals sb !! "connection" = Some VNone \/
   exists c ac rg, st_globals sb !! "connection" = Some (VRef c) /\ st_next sp <= c /\
     st_heap sb !! c = Some (OConn true ac rg)) /\
  match r with
  | Ok _ =>
      st_globals sb !! "rows" =
        Some (VList (map (fun t => VTuple [decode_trip true t]) (trips_test e)))
  | Raise _ => st_globals sb !! "rows" = st_globals sp !! "rows"
  end.
Proof.
  intros Hp Hr Ht Hf Hc. to_wp.
  repeat wp_step.
  all: simpl_st; rewrite <- ?app_assoc.
  all: split; [done|];
    split; [eexists; split; [reflexivity|]; split; [reflexivity|]; cbn; eexists; reflexivity|].
  all: try (split; [left; by simplify_map_eq| by simplify_map_eq]).
  all: try (split; [right; eexists _, _, _; split; [by simplify_map_eq|]; split; [lia|]; simplify_map_eq; [reflexivity|..]; lia | by simplify_map_eq]).
Qed.

(** A whole run of import_rows_to_memory.py, staged as the source is: the
    lines before [try], the [try] block, the handler, the [finally] block. *)
Lemma irm_run_spec (e : env) (s0 : st) :
  let '(s1, r) := import_rows_to_memory e s0 in
  match run_lines irm_prefix_lines e s0 with
  | (sp, Raise x) => s1 = sp /\ r = Raise x
  | (sp, Ok _) =>
      let '(sb, rb) := irm_try_body e sp in
      st_console s1 = st_console sb ++
        match rb with
        | Raise x => if handler_matches x then [error_line x] else []
        | Ok _ => []
        end /\
      st_trace s1 = st_trace sb ++
        match st_globals sb !! "connection" with
        | Some (VRef c) => [EvClose c]
        | _ => []
        end /\
      st_globals s1 !! "rows" = st_globals sb !! "rows" /\
      st_globals s1 !! "connection" = st_globals sb !! "connection" /\
      r = match st_globals sb !! "connection", oracle e (length (st_trace sb)) with
          | Some (VRef _), Some y => Raise y
          | _, _ =>
              match rb with
              | Raise x => if handler_matches x then Ok tt else Raise x
              | Ok _ => Ok tt
              end
          end
  end.
Proof.
  to_wp. unfold import_rows_to_memory. apply wp_mbind.
  pose proof (irm_prefix_spec e s0) as Hpre. unfold wp at 1.
  destruct (run_lines irm_prefix_lines e s0) as [sp [[]|x]]; [|done].
  destruct Hpre as (_ & _ & _ & _ & _ & Hp & Hr & Ht & Hf & Hc).
  pose proof (irm_try_body_spec e sp (tc_frame e) Hp Hr Ht Hf Hc) as Hbody.
  unfold irm_try. apply wp_try_except_finally. unfold wp at 1.
  destruct (irm_try_body e sp) as [sb rb].
  destruct Hbody as (_ & _ & Hconn & _).
  destruct Hconn as [Hconn | (c & ac & rg & Hconn & _ & Hheap)].
  - rewrite Hconn. repeat wp_step; simpl_st; rewrite ?app_nil_r;
      unfold error_line; repeat split; by simplify_map_eq.
  - rewrite Hconn. repeat wp_step; simpl_st; rewrite ?app_nil_r;
      unfold error_line; repeat split; by simplify_map_eq.
Qed.

(* ------------------------------------------------------------------ *)
(** ** The Trip Row Importer: which calls are made depends on faults only *)

(** Rewrites each [oracle e n] of the goal with a known answer of the
    oracle at an index equal to [n]. *)
Ltac oracle_rw :=
  repeat match goal with
  | |- context [oracle ?e ?n] =>
      match goal with
      | H : oracle e ?m = _ |- _ =>
          replace (oracle e n) with (oracle e m)
            by (f_equal; rewrite ?length_app; cbn [length]; lia);
          rewrite H
      end
  end.

Lemma no_fault_from_add (o : nat -> option exn) (n a b : nat) :
  no_fault_from o n (a + b) = no_fault_from o n a && no_fault_from o (n + a) b.
Proof.
  revert n. induction a as [|a IH]; intros n; cbn.
  - by rewrite Nat.add_0_r.
  - destruct (o n); [done|]. rewrite IH. by replace (n + S a) with (S n + a) by lia.
Qed.

Lemma executed_queries_app (l1 l2 : list event) :
  executed_queries (l1 ++ l2) = executed_queries l1 ++ executed_queries l2.
Proof. apply flat_map_app. Qed.

Lemma irm_prefix_no_fault (e : env) (s0 : st) :
  let '(sp, r) := run_lines irm_prefix_lines e s0 in
  match r with
  | Ok _ => st_trace sp = st_trace s0 ++ irm_prefix_events /\
            no_fault_from (oracle e) (length (st_trace s0)) 5 = true
  | Raise _ => no_fault_from (oracle e) (length (st_trace s0)) 5 = false
  end.
Proof.
  to_wp. repeat wp_step.
  all: simpl_st; rewrite <- ?app_assoc; cbn [no_fault_from]; oracle_rw; done.
Qed.

Lemma irm_try_body_queries (e : env) (sp : st) (k : Z) :
  st_globals sp !! "psycopg2" = Some (VModule "psycopg2") ->
  st_globals sp !! "register" = Some (VFunc "register") ->
  st_globals sp !! "temporalController" = Some (VHost HTemporalController) ->
  st_globals sp !! "currentFrameNumber" = Some (VInt k) ->
  st_globals sp !! "connection" = Some VNone ->
  let '(sb, _) := irm_try_body e sp in
  exists evs, st_trace sb = st_trace sp ++ evs /\
    executed_queries evs =
      if no_fault_from (oracle e) (length (st_trace sp)) 5
      then [("SELECT trip FROM trips_test", None)] else [].
Proof.
  intros Hp Hr Ht Hf Hc. to_wp.
  repeat wp_step.
  all: simpl_st; rewrite <- ?app_assoc; eexists; split; [reflexivity|].
  all: cbn [no_fault_from]; oracle_rw; reflexivity.
Qed.

(** The queries a run executes are determined by the fault oracle alone:
    [SELECT trip FROM trips_test], without parameters, once if none of the
    ten calls up to and including [cursor.execute] is preceded by a fault,
    and none otherwise. *)
Lemma irm_executed_queries (e : env) (s0 : st) :
  let '(s1, _) := import_rows_to_memory e s0 in
  executed_queries (new_events s0 s1) =
    if no_fault_from (oracle e) (length (st_trace s0)) 10
    then [("SELECT trip FROM trips_test", None)] else [].
Proof.
  pose proof (irm_run_spec e s0) as Hrun.
  pose proof (irm_prefix_no_fault e s0) as Hpf.
  pose proof (irm_prefix_spec e s0) as Hpre.
  rewrite (no_fault_from_add _ _ 5 5).
  destruct (run_lines irm_prefix_lines e s0) as [sp [[]|x0]].
  - destruct Hpf as [Htp ->].
    destruct Hpre as (_ & _ & _ & _ & _ & Hp & Hr & Ht & Hf & Hc).
    pose proof (irm_try_body_queries e sp (tc_frame e) Hp Hr Ht Hf Hc) as Hq.
    destruct (irm_try_body e sp) as [sb rb].
    destruct Hq as (evb & Htrb & Hqb).
    destruct (import_rows_to_memory e s0) as [s1 r].
    destruct Hrun as (_ & Htr1 & _).
    unfold new_events. rewrite Htr1, Htrb, Htp, <- !app_assoc, drop_app_length.
    rewrite !executed_queries_app, Hqb, Htp, length_app.
    replace (length irm_prefix_events) with 5 by reflexivity.
    destruct (st_globals sb !! "connection") as [[]|];
      destruct (no_fault_from (oracle e) (length (st_trace s0) + 5) 5); reflexivity.
  - destruct Hpre as (_ & _ & _ & _ & (evs & Htr & [k Hk]) & _).
    destruct (import_rows_to_memory e s0) as [s1 r].
    destruct Hrun as [-> _]. rewrite Hpf.
    unfold new_events. rewrite Htr, drop_app_length.
    assert (H0 : executed_queries evs ++ executed_queries k = []).
    { rewrite <- executed_queries_app, <- Hk. reflexivity. }
    by apply app_eq_nil in H0 as [-> _].
Qed.

(* ------------------------------------------------------------------ *)
(** ** Claims on the Trip Row Importer *)

(** C2 (as stated): every fault of the [try] block is reported by one printed
    message and not re-raised.  Refuted: a [KeyboardInterrupt] raised by
    [cursor.execute] is not an [Exception]; it is not caught, nothing is
    printed, the connection is closed by [finally] and the interrupt
    propagates out of the script. *)
Lemma C2_keyboard_interrupt_escapes_handler :
  let '(s1, r) := import_rows_to_memory env_interrupt_at_execute st_empty in
  r = Raise (mkExn KeyboardInterrupt "") /\
  st_console s1 = [] /\
  st_trace s1 =
    [EvImport "psycopg2"; EvImport "mobilitydb.psycopg"; EvMapCanvas;
     EvTemporalController; EvCurrentFrameNumber;
     EvConnect "localhost" "postgres" "postgres" "postgres";
     EvSetAutocommit 0 true; EvRegister 0; EvCursor 0;
     EvDateTimeRangeForFrameNumber 7;
     EvExecute 1 "SELECT trip FROM trips_test" None; EvClose 0].
Proof. vm_compute. repeat split; reflexivity. Qed.

(** C2 (amended): when the lines before [try] complete and the [try] block
    raises [x], the handler prints exactly one message (the fixed prefix
    and the exception) if [x] derives from [Exception] (psycopg2.Error
    included) and nothing otherwise; [finally] then calls [close] once if
    [connection] holds a connection opened in this run and never if it is
    still [None]; the script ends normally when [x] was caught, unless
    [close] itself raises, and otherwise re-raises [x] (or the exception
    of [close]). *)
Theorem C2_fault_in_try_handled (e : env) (s0 : st) :
  match run_lines irm_prefix_lines e s0 with
  | (sp, Ok _) =>
      match irm_try_body e sp with
      | (sb, Raise x) =>
          let '(s1, r) := import_rows_to_memory e s0 in
          st_console s1 =
            st_console s0 ++ (if handler_matches x then [error_line x] else []) /\
          (st_globals sb !! "connection" = Some VNone \/
           exists c, st_globals sb !! "connection" = Some (VRef c) /\ st_next s0 <= c) /\
          new_events sb s1 =
            match st_globals sb !! "connection" with
            | Some (VRef c) => [EvClose c]
            | _ => []
            end /\
          r = match st_globals sb !! "connection", oracle e (length (st_trace sb)) with
              | Some (VRef _), Some y => Raise y
              | _, _ => if handler_matches x then Ok tt else Raise x
              end
      | (_, Ok _) => True
      end
  | (_, Raise _) => True
  end.
Proof.
  pose proof (irm_run_spec e s0) as Hrun.
  pose proof (irm_prefix_spec e s0) as Hpre.
  destruct (run_lines irm_prefix_lines e s0) as [sp [[]|x0]]; [|done].
  destruct Hpre as (Hcon & Hnext & _ & _ & _ & Hp & Hr & Ht & Hf & Hc).
  pose proof (irm_try_body_spec e sp (tc_frame e) Hp Hr Ht Hf Hc) as Hbody.
  destruct (irm_try_body e sp) as [sb [[]|x]]; [done|].
  destruct Hbody as (Hconb & _ & Hconn & _).
  destruct (import_rows_to_memory e s0) as [s1 r].
  destruct Hrun as (Hc1 & Htr1 & _ & _ & Hr1).
  split; [by rewrite Hc1, Hconb, Hcon|].
  split.
  - destruct Hconn as [Hconn | (c & ac & rg & Hconn & Hle & _)]; [by left|].
    right. exists c. split; [done | lia].
  - split; [unfold new_events; by rewrite Htr1, drop_app_length|].
    rewrite Hr1. destruct (st_globals sb !! "connection") as [[]|]; try done;
      destruct (oracle e _); done.
Qed.

(** C3: in every run of import_rows_to_memory.py (any faults, in any call)
    in which [psycopg2.connect] returned a connection [c] (a connection
    object created in this run and bound to [connection]), the run makes
    exactly one [close] call, and it is on [c]: on the success path and on
    every failure path alike. *)
Theorem C3_opened_connection_closed_once (e : env) (s0 : st) (c : nat) :
  wf_state s0 ->
  let '(s1, _) := import_rows_to_memory e s0 in
  st_globals s1 !! "connection" = Some (VRef c) -> st_next s0 <= c ->
  filter (fun ev => is_close ev = true) (new_events s0 s1) = [EvClose c].
Proof.
  intros [_ Hwf].
  pose proof (irm_run_spec e s0) as Hrun.
  pose proof (irm_prefix_spec e s0) as Hpre.
  destruct (run_lines irm_prefix_lines e s0) as [sp [[]|x0]].
  - destruct Hpre as (_ & Hnext & _ & _ & (evs & Htr & Hevs) & Hp & Hr & Ht & Hf & Hc).
    pose proof (irm_try_body_spec e sp (tc_frame e) Hp Hr Ht Hf Hc) as Hbody.
    destruct (irm_try_body e sp) as [sb rb].
    destruct Hbody as (_ & (evb & Htrb & Hclose & _) & Hconn & _).
    destruct (import_rows_to_memory e s0) as [s1 r].
    destruct Hrun as (_ & Htr1 & _ & Hconn1 & _).
    intros Hc1 _. rewrite Hconn1 in Hc1.
    destruct Hconn as [Hconn | (c' & ac & rg & Hconn & _ & _)];
      rewrite Hconn in Hc1; [done|].
    injection Hc1 as ->.
    unfold new_events. rewrite Htr1, Hconn, Htrb, Htr, <- !app_assoc, drop_app_length.
    rewrite !filter_app.
    assert (Hb : filter (fun ev => is_close ev = true) evb = []).
    { unfold count_close in Hclose. by apply length_zero_iff_nil. }
    assert (Hp0 : filter (fun ev => is_close ev = true) evs = []).
    { destruct Hevs as [k Hk].
      apply length_zero_iff_nil.
      assert (Hle : length (filter (fun ev => is_close ev = true) evs)
                    <= length (filter (fun ev => is_close ev = true) irm_prefix_events)).
      { rewrite Hk, filter_app, length_app. lia. }
      assert (H0 : length (filter (fun ev => is_close ev = true) irm_prefix_events) = 0)
        by (vm_compute; reflexivity).
      lia. }
    rewrite Hb, Hp0. reflexivity.
  - destruct Hpre as (_ & _ & _ & _ & _ & Hconn).
    destruct (import_rows_to_memory e s0) as [s1 r].
    destruct Hrun as [-> _].
    intros Hc1 Hle. rewrite Hconn in Hc1. apply Hwf in Hc1. lia.
Qed.

Lemma C3_opened_connection_closed_once_witness :
  wf_state st_empty /\
  let '(s1, _) := import_rows_to_memory env_execute_fails st_empty in
  st_globals s1 !! "connection" = Some (VRef 0) /\ st_next st_empty <= 0 /\
  filter (fun ev => is_close ev = true) (new_events st_empty s1) = [EvClose 0].
Proof.
  split; [apply wf_st_empty|].
  pose proof (C3_opened_connection_closed_once env_execute_fails st_empty 0 wf_st_empty) as H.
  destruct (import_rows_to_memory env_execute_fails st_empty) as [s1 r] eqn:E.
  vm_compute in E. injection E as <- <-.
  split; [reflexivity|]. split; [apply le_n|].
  apply H; [reflexivity | apply le_n].
Defined.

(** C6: when the [try] block completes, [rows] holds a list with one
    element per row of [trips_test], in order, each a 1-tuple whose element
    is the decoded temporal value, or [None] for SQL NULL. *)
Theorem C6_rows_hold_decoded_trips (e : env) (s0 : st) :
  match run_lines irm_prefix_lines e s0 with
  | (sp, Ok _) =>
      match irm_try_body e sp with
      | (_, Ok _) =>
          let '(s1, _) := import_rows_to_memory e s0 in
          exists rs, st_globals s1 !! "rows" = Some (VList rs) /\
            length rs = length (trips_test e) /\
            Forall2 (fun row cell =>
                       row = VTuple [match cell with
                                     | Some raw => VTrip raw
                                     | None => VNone
                                     end]) rs (trips_test e)
      | (_, Raise _) => True
      end
  | (_, Raise _) => True
  end.
Proof.
  pose proof (irm_run_spec e s0) as Hrun.
  pose proof (irm_prefix_spec e s0) as Hpre.
  destruct (run_lines irm_prefix_lines e s0) as [sp [[]|x0]]; [|done].
  destruct Hpre as (_ & _ & _ & _ & _ & Hp & Hr & Ht & Hf & Hc).
  pose proof (irm_try_body_spec e sp (tc_frame e) Hp Hr Ht Hf Hc) as Hbody.
  destruct (irm_try_body e sp) as [sb [[]|x]]; [|done].
  destruct Hbody as (_ & _ & _ & Hrows).
  destruct (import_rows_to_memory e s0) as [s1 r].
  destruct Hrun as (_ & _ & Hrows1 & _).
  eexists. split; [by rewrite Hrows1, Hrows|].
  split; [by rewrite length_map|].
  clear. induction (trips_test e) as [|[raw|] cells IH]; constructor; done.
Qed.

(** C9: when the [try] block raises, whichever of its steps raised, the
    run leaves the binding of [rows] as it was before the run (so a fresh
    console still has [rows] unbound): no partial row set is stored. *)
Theorem C9_failed_try_leaves_rows_unassigned (e : env) (s0 : st) :
  match run_lines irm_prefix_lines e s0 with
  | (sp, Ok _) =>
      match irm_try_body e sp with
      | (_, Raise _) =>
          let '(s1, _) := import_rows_to_memory e s0 in
          st_globals s1 !! "rows" = st_globals s0 !! "rows"
      | (_, Ok _) => True
      end
  | (_, Raise _) => True
  end.
Proof.
  pose proof (irm_run_spec e s0) as Hrun.
  pose proof (irm_prefix_spec e s0) as Hpre.
  destruct (run_lines irm_prefix_lines e s0) as [sp [[]|x0]]; [|done].
  destruct Hpre as (_ & _ & _ & Hrows0 & _ & Hp & Hr & Ht & Hf & Hc).
  pose proof (irm_try_body_spec e sp (tc_frame e) Hp Hr Ht Hf Hc) as Hbody.
  destruct (irm_try_body e sp) as [sb [[]|x]]; [done|].
  destruct Hbody as (_ & _ & _ & Hrows).
  destruct (import_rows_to_memory e s0) as [s1 r].
  destruct Hrun as (_ & _ & Hrows1 & _).
  by rewrite Hrows1, Hrows, Hrows0.
Qed.

(** C10: the handler covers the [try] block only.  A fault of the lines
    before it (the imports, [iface.mapCanvas()], [temporalController()],
    [currentFrameNumber()]) ends the run with that very exception and
    nothing printed; a fault of [connection.close()] in [finally] ends the
    run with the exception of [close]. *)
Theorem C10_faults_outside_try_propagate (e : env) (s0 : st) :
  let '(s1, r) := import_rows_to_memory e s0 in
  match run_lines irm_prefix_lines e s0 with
  | (sp, Raise x) =>
      r = Raise x /\ st_console s1 = st_console s0 /\
      new_events s0 s1 `prefix_of` irm_prefix_events
  | (sp, Ok _) =>
      let '(sb, _) := irm_try_body e sp in
      match st_globals sb !! "connection", oracle e (length (st_trace sb)) with
      | Some (VRef c), Some y => new_events sb s1 = [EvClose c] /\ r = Raise y
      | _, _ => True
      end
  end.
Proof.
  pose proof (irm_run_spec e s0) as Hrun.
  pose proof (irm_prefix_spec e s0) as Hpre.
  destruct (import_rows_to_memory e s0) as [s1 r].
  destruct (run_lines irm_prefix_lines e s0) as [sp [[]|x0]].
  - destruct (irm_try_body e sp) as [sb rb].
    destruct Hrun as (_ & Htr1 & _ & _ & Hr1).
    destruct (st_globals sb !! "connection") as [[]|]; try done.
    destruct (oracle e _) as [y|]; [|done].
    split; [unfold new_events; by rewrite Htr1, drop_app_length | done].
  - destruct Hrun as [-> ->].
    destruct Hpre as (Hcon & _ & _ & _ & (evs & Htr & Hevs) & _).
    split; [done|]. split; [done|].
    unfold new_events. by rewrite Htr, drop_app_length.
Qed.

(** C4: the only query the script executes is the fixed text
    [SELECT trip FROM trips_test], with no parameters; two runs from the
    same console under the same faults, whatever the current frame number,
    its date-time range and the table contents, execute the same queries:
    the computed time range has no influence on the query. *)
Theorem C4_query_independent_of_time_range (e : env) (f : Z) (g : Z -> Z * Z)
  (t : list (option string)) (s0 : st) :
  let '(s1, _) := import_rows_to_memory e s0 in
  let '(s1', _) := import_rows_to_memory (mkEnv (oracle e) f g t) s0 in
  executed_queries (new_events s0 s1) = executed_queries (new_events s0 s1') /\
  Forall (fun q => q = ("SELECT trip FROM trips_test", None))
    (executed_queries (new_events s0 s1)).
Proof.
  pose proof (irm_executed_queries e s0) as H1.
  pose proof (irm_executed_queries (mkEnv (oracle e) f g t) s0) as H2.
  destruct (import_rows_to_memory e s0) as [s1 r1].
  destruct (import_rows_to_memory (mkEnv (oracle e) f g t) s0) as [s1' r1'].
  cbn [oracle] in H2. rewrite H1, H2. split; [done|].
  destruct (no_fault_from _ _ 10); repeat constructor.
Qed.

(* ------------------------------------------------------------------ *)
(** ** Further properties: the Layer Initializer under any faults *)

(** What a run of create_temporal_layer.py changes, whatever call raises. *)
Lemma ctl_run_facts (e : env) (s0 : st) :
  let '(s1, r) := create_temporal_layer e s0 in
  st_next s1 <= S (st_next s0) /\
  (forall a, a <> st_next s0 -> st_heap s1 !! a = st_heap s0 !! a) /\
  st_console s1 = st_console s0 /\
  match r with
  | Ok _ =>
      st_registry s1 = (if decide (st_next s0 ∈ st_registry s0) then st_registry s0
                        else st_registry s0 ++ [st_next s0])
  | Raise y =>
      st_registry s1 = st_registry s0 /\
      exists n, length (st_trace s0) <= n < length (st_trace s1) /\ oracle e n = Some y
  end.
Proof.
  to_wp. repeat wp_step.
  all: simpl_st; try case_decide; simpl_st.
  all: split; [lia|]; split; [intros a Ha; rewrite ?lookup_insert_ne by lia; reflexivity|];
       split; [reflexivity|].
  all: try reflexivity.
  all: split; [reflexivity|]; eexists; split; [|eassumption];
       rewrite ?length_app; cbn [length]; lia.
Qed.

(* ------------------------------------------------------------------ *)
(** ** Further properties: the Trip Row Importer under any faults *)

(** The calls, allocations and bindings of the [try] block. *)
Lemma irm_try_body_facts (e : env) (sp : st) (k : Z) :
  st_globals sp !! "psycopg2" = Some (VModule "psycopg2") ->
  st_globals sp !! "register" = Some (VFunc "register") ->
  st_globals sp !! "temporalController" = Some (VHost HTemporalController) ->
  st_globals sp !! "currentFrameNumber" = Some (VInt k) ->
  st_globals sp !! "connection" = Some VNone ->
  let '(sb, r) := irm_try_body e sp in
  (exists evs, st_trace sb = st_trace sp ++ evs /\
     evs `prefix_of` irm_body_calls (st_next sp) k) /\
  st_next sb <= S (S (st_next sp)) /\
  (forall a, a < st_next sp -> st_heap sb !! a = st_heap sp !! a) /\
  st_registry sb = st_registry sp /\
  st_globals sb !! "error" = st_globals sp !! "error" /\
  (st_globals sb !! "connection" = Some VNone \/
   st_globals sb !! "connection" = Some (VRef (st_next sp))) /\
  match r with
  | Ok _ => st_heap sb !! st_next sp = Some (OConn true true true)
  | Raise x =>
      exists n, length (st_trace sp) <= n < length (st_trace sb) /\ oracle e n = Some x
  end.
Proof.
  intros Hp Hr Ht Hf Hc. to_wp.
  repeat wp_step.
  all: simpl_st; rewrite <- ?app_assoc.
  all: split; [eexists; split; [reflexivity|]; unfold irm_body_calls; cbn; eexists; reflexivity|].
  all: split; [lia|].
  all: split; [intros a Ha; rewrite ?lookup_insert_ne by lia; reflexivity|].
  all: split; [reflexivity|].
  all: split; [by simplify_map_eq|].
  all: split; [first [left; by simplify_map_eq | right; by simplify_map_eq]|].
  all: first [ by simplify_map_eq
             | eexists; split; [|eassumption]; rewrite ?length_app; cbn [length]; lia ].
Qed.

(** The objects, the registry and the name [error] after the handler and
    [finally]. *)
Lemma irm_run_state_spec (e : env) (s0 : st) :
  let '(s1, r) := import_rows_to_memory e s0 in
  match run_lines irm_prefix_lines e s0 with
  | (sp, Raise _) => s1 = sp
  | (sp, Ok _) =>
      let '(sb, rb) := irm_try_body e sp in
      st_next s1 = st_next sb /\ st_registry s1 = st_registry sb /\
      st_globals s1 !! "error" =
        match rb with
        | Raise x => if handler_matches x then None else st_globals sb !! "error"
        | Ok _ => st_globals sb !! "error"
        end /\
      st_heap s1 =
        match st_globals sb !! "connection", oracle e (length (st_trace sb)) with
        | Some (VRef c), None =>
            match st_heap sb !! c with
            | Some (OConn _ ac rg) => <[c := OConn false ac rg]> (st_heap sb)
            | _ => st_heap sb
            end
        | _, _ => st_heap sb
        end
  end.
Proof.
  to_wp. unfold import_rows_to_memory. apply wp_mbind.
  pose proof (irm_prefix_spec e s0) as Hpre. unfold wp at 1.
  destruct (run_lines irm_prefix_lines e s0) as [sp [[]|x]]; [|done].
  destruct Hpre as (_ & _ & _ & _ & _ & Hp & Hr & Ht & Hf & Hc).
  pose proof (irm_try_body_spec e sp (tc_frame e) Hp Hr Ht Hf Hc) as Hbody.
  unfold irm_try. apply wp_try_except_finally. unfold wp at 1.
  destruct (irm_try_body e sp) as [sb rb].
  destruct Hbody as (_ & _ & Hconn & _).
  destruct Hconn as [Hconn | (c & ac & rg & Hconn & _ & Hheap)].
  - rewrite Hconn. repeat wp_step; simpl_st; repeat split; by simplify_map_eq.
  - rewrite Hconn, Hheap. repeat wp_step; simpl_st; repeat split; by simplify_map_eq.
Qed.

(** The lines before [try] leave the registry and [error] alone, and raise
    only what a host call raised. *)
Lemma irm_prefix_facts (e : env) (s0 : st) :
  let '(sp, r) := run_lines irm_prefix_lines e s0 in
  st_registry sp = st_registry s0 /\
  st_globals sp !! "error" = st_globals s0 !! "error" /\
  match r with
  | Ok _ => True
  | Raise x =>
      exists n, length (st_trace s0) <= n < length (st_trace sp) /\ oracle e n = Some x
  end.
Proof.
  to_wp. repeat wp_step.
  all: simpl_st; split; [reflexivity|]; split; [by simplify_map_eq|].
  all: first [ done
             | eexists; split; [|eassumption]; rewrite ?length_app; cbn [length]; lia ].
Qed.


(** Layer Initializer: from a well-formed state, a run that completes
    appends its new layer (the object at [st_next s0]) to the project's
    registry, and a run that raises anywhere leaves the registry unchanged:
    a partially configured layer is never registered. *)
Theorem create_temporal_layer_registers_only_on_success (e : env) (s0 : st) :
  wf_state s0 ->
  let '(s1, r) := create_temporal_layer e s0 in
  match r with
  | Ok _ => st_registry s1 = st_registry s0 ++ [st_next s0]
  | Raise _ => st_registry s1 = st_registry s0
  end.
Proof.
  intros [Hreg _].
  pose proof (ctl_run_facts e s0) as H.
  destruct (create_temporal_layer e s0) as [s1 [[]|y]].
  - destruct H as (_ & _ & _ & ->). case_decide as Hin; [|done].
    rewrite Forall_forall in Hreg. apply Hreg in Hin. lia.
  - by destruct H as (_ & _ & _ & -> & _).
Qed.

Lemma create_temporal_layer_registers_only_on_success_witness :
  wf_state st_empty /\
  let '(s1, r) := create_temporal_layer env_ok st_empty in
  match r with
  | Ok _ => st_registry s1 = st_registry st_empty ++ [st_next st_empty]
  | Raise _ => st_registry s1 = st_registry st_empty
  end.
Proof.
  split; [apply wf_st_empty|].
  apply (create_temporal_layer_registers_only_on_success env_ok st_empty wf_st_empty).
Defined.

(** Layer Initializer: whatever call raises, the run allocates at most one
    object, modifies no object other than the new layer, and prints
    nothing. *)
Theorem create_temporal_layer_heap_frame (e : env) (s0 : st) :
  let '(s1, _) := create_temporal_layer e s0 in
  st_next s1 <= S (st_next s0) /\
  (forall a, a <> st_next s0 -> st_heap s1 !! a = st_heap s0 !! a) /\
  st_console s1 = st_console s0.
Proof.
  pose proof (ctl_run_facts e s0) as H.
  destruct (create_temporal_layer e s0) as [s1 r].
  by destruct H as (? & ? & ? & _).
Qed.

(** Layer Initializer: the script's own code raises nothing (no
    [NameError], [AttributeError], [TypeError]): every exception that ends a
    run is the one a QGIS call of this run raised. *)
Theorem create_temporal_layer_raises_only_host_faults (e : env) (s0 : st) :
  let '(s1, r) := create_temporal_layer e s0 in
  forall y, r = Raise y ->
  exists n, length (st_trace s0) <= n < length (st_trace s1) /\ oracle e n = Some y.
Proof.
  pose proof (ctl_run_facts e s0) as H.
  destruct (create_temporal_layer e s0) as [s1 r].
  intros y ->. by destruct H as (_ & _ & _ & _ & Hn).
Qed.

(** Trip Row Importer: when no call raises, the run ends normally, prints
    nothing, makes exactly the thirteen calls of the script in order (the
    last one closing the connection), binds [rows] to the decoded rows and
    [dtrange] to the current frame's range, and leaves the connection closed
    with autocommit on and the MobilityDB types registered. *)
Theorem import_rows_to_memory_fault_free (e : env) (s0 : st) :
  (forall n, oracle e n = None) ->
  let '(s1, r) := import_rows_to_memory e s0 in
  r = Ok tt /\ st_console s1 = st_console s0 /\
  new_events s0 s1 =
    irm_prefix_events ++ irm_body_calls (st_next s0) (tc_frame e) ++ [EvClose (st_next s0)] /\
  st_globals s1 !! "rows" =
    Some (VList (map (fun t => VTuple [decode_trip true t]) (trips_test e))) /\
  st_globals s1 !! "dtrange" =
    Some (VRange (fst (tc_range e (tc_frame e))) (snd (tc_range e (tc_frame e)))) /\
  st_heap s1 !! st_next s0 = Some (OConn false true true).
Proof.
  intros Hnf. to_wp. repeat wp_step. simpl_st.
  split; [done|]. split; [done|]. split.
  { unfold new_events. cbn [st_trace]. rewrite <- ?app_assoc, drop_app_length.
    reflexivity. }
  repeat split; by simplify_map_eq.
Qed.

Lemma import_rows_to_memory_fault_free_witness :
  (forall n, oracle env_ok n = None) /\
  let '(s1, r) := import_rows_to_memory env_ok st_empty in
  r = Ok tt /\ st_console s1 = st_console st_empty /\
  new_events st_empty s1 =
    irm_prefix_events ++ irm_body_calls (st_next st_empty) (tc_frame env_ok)
      ++ [EvClose (st_next st_empty)] /\
  st_globals s1 !! "rows" =
    Some (VList (map (fun t => VTuple [decode_trip true t]) (trips_test env_ok))) /\
  st_globals s1 !! "dtrange" =
    Some (VRange (fst (tc_range env_ok (tc_frame env_ok)))
                 (snd (tc_range env_ok (tc_frame env_ok)))) /\
  st_heap s1 !! st_next st_empty = Some (OConn false true true).
Proof.
  split; [intros n; reflexivity|].
  apply (import_rows_to_memory_fault_free env_ok st_empty). intros n; reflexivity.
Defined.

(** Trip Row Importer: whatever call raises, the calls of a run are a
    prefix of the fault-free call sequence up to [fetchall], followed by at
    most one [close], on the connection this run opened. *)
Theorem import_rows_to_memory_call_order (e : env) (s0 : st) :
  let '(s1, _) := import_rows_to_memory e s0 in
  exists evs tail, new_events s0 s1 = evs ++ tail /\
    evs `prefix_of` irm_prefix_events ++ irm_body_calls (st_next s0) (tc_frame e) /\
    (tail = [] \/ tail = [EvClose (st_next s0)]).
Proof.
  pose proof (irm_run_spec e s0) as Hrun.
  pose proof (irm_prefix_spec e s0) as Hpre.
  pose proof (irm_prefix_no_fault e s0) as Hpf.
  destruct (run_lines irm_prefix_lines e s0) as [sp [[]|x0]].
  - destruct Hpf as [Htp _].
    destruct Hpre as (_ & Hnext & _ & _ & _ & Hp & Hr & Ht & Hf & Hc).
    pose proof (irm_try_body_facts e sp (tc_frame e) Hp Hr Ht Hf Hc) as Hbody.
    destruct (irm_try_body e sp) as [sb rb].
    destruct Hbody as ((evb & Htrb & Hevb) & _ & _ & _ & _ & Hconn & _).
    destruct (import_rows_to_memory e s0) as [s1 r].
    destruct Hrun as (_ & Htr1 & _).
    exists (irm_prefix_events ++ evb).
    exists (match st_globals sb !! "connection" with Some (VRef c) => [EvClose c] | _ => [] end).
    split.
    + unfold new_events. rewrite Htr1, Htrb, Htp, <- !app_assoc, drop_app_length.
      by rewrite app_assoc.
    + split; [by apply prefix_app; rewrite <- Hnext|].
      destruct Hconn as [-> | ->]; [by left | right; by rewrite Hnext].
  - destruct Hpre as (_ & _ & _ & _ & (evs & Htr & Hevs) & _).
    destruct (import_rows_to_memory e s0) as [s1 r].
    destruct Hrun as [-> _].
    exists evs, []. split; [unfold new_events; by rewrite Htr, drop_app_length, app_nil_r|].
    split; [by apply prefix_app_r|]. by left.
Qed.

(** Trip Row Importer: the script's own code raises nothing: every
    exception that ends a run is the one a host or driver call of this run
    raised. *)
Theorem import_rows_to_memory_raises_only_host_faults (e : env) (s0 : st) :
  let '(s1, r) := import_rows_to_memory e s0 in
  forall y, r = Raise y ->
  exists n, length (st_trace s0) <= n < length (st_trace s1) /\ oracle e n = Some y.
Proof.
  pose proof (irm_run_spec e s0) as Hrun.
  pose proof (irm_prefix_spec e s0) as Hpre.
  pose proof (irm_prefix_facts e s0) as Hpx.
  destruct (run_lines irm_prefix_lines e s0) as [sp [[]|x0]].
  - destruct Hpre as (_ & _ & _ & _ & (evs & Htr & _) & Hp & Hr & Ht & Hf & Hc).
    pose proof (irm_try_body_facts e sp (tc_frame e) Hp Hr Ht Hf Hc) as Hbody.
    destruct (irm_try_body e sp) as [sb rb].
    destruct Hbody as ((evb & Htrb & _) & _ & _ & _ & _ & _ & Hrb).
    destruct (import_rows_to_memory e s0) as [s1 r].
    destruct Hrun as (_ & Htr1 & _ & _ & ->).
    assert (Hlen : length (st_trace s0) <= length (st_trace sb) <= length (st_trace s1)).
    { rewrite Htr1, Htrb, Htr, !length_app. lia. }
    intros y Hy.
    destruct (st_globals sb !! "connection") as [[]|] eqn:Hc1;
      try destruct (oracle e (length (st_trace sb))) as [z|] eqn:Ez;
      try (injection Hy as <-; exists (length (st_trace sb));
           split; [rewrite Htr1, length_app; cbn; lia | exact Ez]);
      (destruct rb as [[]|x]; [discriminate|];
       destruct (handler_matches x); [discriminate|]; injection Hy as <-;
       destruct Hrb as (n & Hn & Hon); exists n; split; [|exact Hon];
       rewrite Htr, length_app in Hn; lia).
  - destruct Hpx as (_ & _ & (n & Hn & Hon)).
    destruct (import_rows_to_memory e s0) as [s1 r].
    destruct Hrun as [-> ->]. intros y Hy. injection Hy as <-. by exists n.
Qed.


(** Trip Row Importer: from a well-formed state, if the run opened the
    connection [c], its last call is [close] on [c]; when that call does not
    raise, [c] ends closed, and when it raises, the run ends with that
    exception and [c] is left open. *)
Theorem import_rows_to_memory_connection_closed (e : env) (s0 : st) (c : nat) :
  wf_state s0 ->
  let '(s1, r) := import_rows_to_memory e s0 in
  st_globals s1 !! "connection" = Some (VRef c) -> st_next s0 <= c ->
  last (st_trace s1) = Some (EvClose c) /\
  match oracle e (pred (length (st_trace s1))) with
  | None => exists ac rg, st_heap s1 !! c = Some (OConn false ac rg)
  | Some y => r = Raise y /\ exists ac rg, st_heap s1 !! c = Some (OConn true ac rg)
  end.
Proof.
  intros [_ Hwf].
  pose proof (irm_run_spec e s0) as Hrun.
  pose proof (irm_run_state_spec e s0) as Hst.
  pose proof (irm_prefix_spec e s0) as Hpre.
  destruct (run_lines irm_prefix_lines e s0) as [sp [[]|x0]].
  - destruct Hpre as (_ & _ & _ & _ & _ & Hp & Hr & Ht & Hf & Hc).
    pose proof (irm_try_body_spec e sp (tc_frame e) Hp Hr Ht Hf Hc) as Hbody.
    destruct (irm_try_body e sp) as [sb rb].
    destruct Hbody as (_ & _ & Hconn & _).
    destruct (import_rows_to_memory e s0) as [s1 r].
    destruct Hrun as (_ & Htr1 & _ & Hconn1 & Hr1).
    destruct Hst as (_ & _ & _ & Hh1).
    intros Hc1 _. rewrite Hconn1 in Hc1.
    destruct Hconn as [Hconn | (c' & ac & rg & Hconn & _ & Hheap)];
      rewrite Hconn in Hc1; [done|].
    injection Hc1 as ->.
    rewrite Hconn in Htr1, Hr1, Hh1. rewrite Hheap in Hh1.
    rewrite Htr1, last_app, length_app, Nat.add_1_r. cbn [last pred length].
    split; [done|].
    destruct (oracle e (length (st_trace sb))) as [y|].
    + split; [done|]. exists ac, rg. by rewrite Hh1.
    + exists ac, rg. rewrite Hh1. by simplify_map_eq.
  - destruct Hpre as (_ & _ & _ & _ & _ & Hconn).
    destruct (import_rows_to_memory e s0) as [s1 r].
    destruct Hrun as [-> _].
    intros Hc1 Hle. rewrite Hconn in Hc1. apply Hwf in Hc1. lia.
Qed.

Lemma import_rows_to_memory_connection_closed_witness :
  wf_state st_empty /\
  let '(s1, r) := import_rows_to_memory env_execute_fails st_empty in
  st_globals s1 !! "connection" = Some (VRef 0) /\ st_next st_empty <= 0 /\
  last (st_trace s1) = Some (EvClose 0) /\
  match oracle env_execute_fails (pred (length (st_trace s1))) with
  | None => exists ac rg, st_heap s1 !! 0 = Some (OConn false ac rg)
  | Some y => r = Raise y /\ exists ac rg, st_heap s1 !! 0 = Some (OConn true ac rg)
  end.
Proof.
  split; [apply wf_st_empty|].
  pose proof (import_rows_to_memory_connection_closed env_execute_fails st_empty 0
                wf_st_empty) as H.
  destruct (import_rows_to_memory env_execute_fails st_empty) as [s1 r] eqn:E.
  vm_compute in E. injection E as <- <-.
  split; [reflexivity|]. split; [apply le_n|].
  apply H; [reflexivity | apply le_n].
Defined.

(** Trip Row Importer: a run either prints nothing and leaves the name
    [error] as it was, or prints exactly one line, the handler's message for
    a caught exception [x], and leaves [error] unbound. *)
Theorem import_rows_to_memory_prints_at_most_once (e : env) (s0 : st) :
  let '(s1, _) := import_rows_to_memory e s0 in
  (st_console s1 = st_console s0 /\
   st_globals s1 !! "error" = st_globals s0 !! "error") \/
  (exists x, handler_matches x = true /\
     st_console s1 = st_console s0 ++ [error_line x] /\
     st_globals s1 !! "error" = None).
Proof.
  pose proof (irm_run_spec e s0) as Hrun.
  pose proof (irm_run_state_spec e s0) as Hst.
  pose proof (irm_prefix_spec e s0) as Hpre.
  pose proof (irm_prefix_facts e s0) as Hpx.
  destruct (run_lines irm_prefix_lines e s0) as [sp [[]|x0]].
  - destruct Hpx as (_ & Herr & _).
    destruct Hpre as (Hcon & _ & _ & _ & _ & Hp & Hr & Ht & Hf & Hc).
    pose proof (irm_try_body_facts e sp (tc_frame e) Hp Hr Ht Hf Hc) as Hbody.
    pose proof (irm_try_body_spec e sp (tc_frame e) Hp Hr Ht Hf Hc) as Hbody'.
    destruct (irm_try_body e sp) as [sb rb].
    destruct Hbody as (_ & _ & _ & _ & Herrb & _).
    destruct Hbody' as (Hconb & _).
    destruct (import_rows_to_memory e s0) as [s1 r].
    destruct Hrun as (Hc1 & _).
    destruct Hst as (_ & _ & Herr1 & _).
    rewrite Hc1, Hconb, Hcon. rewrite Herr1.
    destruct rb as [[]|x].
    + left. rewrite app_nil_r. split; [done|]. by rewrite Herrb.
    + destruct (handler_matches x) eqn:Hm.
      * right. by exists x.
      * left. rewrite app_nil_r. split; [done|]. by rewrite Herrb.
  - destruct Hpx as (_ & Herr & _).
    destruct Hpre as (Hcon & _).
    destruct (import_rows_to_memory e s0) as [s1 r].
    destruct Hrun as [-> _]. by left.
Qed.
